(** * vue-easy-di: [defineUseDependencyInjection] and the resolver it returns

    A shallow embedding of [src/index.ts].  The file has one exported
    function, [defineUseDependencyInjection], whose result is the closure
    [UseDependencyInjection].  Both are dynamically typed at run time (the
    resolver's parameters are [unknown]), so they are embedded over a small
    universe of JavaScript values, with exceptions and the component-tree
    store threaded through a state-and-exception monad. *)

From stdpp Require Import base option list gmap strings pretty.

Open Scope string_scope.

(* ===================================================================== *)
(** ** JavaScript values *)
(* ===================================================================== *)

Inductive error_class := JsError | JsTypeError.

(** The values the two functions can be handed.  A function is one of the
    zero-argument callbacks of the library (initializers, default factories,
    error factories); it is represented by how its invocation completes.
    Plain objects carry their own data properties. *)
#[warnings="-register-all"] Inductive value :=
| VUndefined
| VNull
| VBool (b : bool)
| VStr (s : string)
| VSym (id : nat) (description : string)
| VObj (props : gmap string value)
| VFun (body : completion)
| VErr (cls : error_class) (message : string)
with completion :=
| Returns (v : value)
| Throws (e : value).

(** [x == null] *)
Definition is_nullish (v : value) : bool :=
  match v with
  | VUndefined | VNull => true
  | _ => false
  end.

(** [typeof x === 'function'] *)
Definition is_function (v : value) : bool :=
  match v with
  | VFun _ => true
  | _ => false
  end.

(** [x === 'literal'] *)
Definition strict_eq_string (v : value) (lit : string) : bool :=
  match v with
  | VStr s => bool_decide (s = lit)
  | _ => false
  end.

(** [a ?? b], for an already evaluated right operand. *)
Definition nullish_or (a b : value) : value :=
  if is_nullish a then b else a.

(** Reading a property of an object's own table: [o.p], [undefined] when
    missing. *)
Definition prop (o : gmap string value) (p : string) : value :=
  default VUndefined (o !! p).

(** [x.p] for the three property names the source reads ([key],
    [injectDefault], [throwOnNoProvider]).  None of them exists, own or
    inherited, on a string, boolean, symbol, function or error, so the read
    there gives [undefined]. *)
Definition get_prop (x : value) (p : string) : value :=
  match x with
  | VObj o => prop o p
  | _ => VUndefined
  end.

Definition class_name (c : error_class) : string :=
  match c with
  | JsError => "Error"
  | JsTypeError => "TypeError"
  end.

(** [x.toString()].  Exact on strings and symbols, the two kinds the declared
    key type [InjectionKey<T> | string] admits.  A function prints as its
    source text, which the embedding does not carry; a fixed text stands for
    it. *)
Definition toString (v : value) : string :=
  match v with
  | VUndefined => "undefined"
  | VNull => "null"
  | VBool true => "true"
  | VBool false => "false"
  | VStr s => s
  | VSym _ d => "Symbol(" ++ d ++ ")"
  | VObj _ => "[object Object]"
  | VFun _ => "function () { [code] }"
  | VErr c m => class_name c ++ ": " ++ m
  end.

(** The characters of a string as the indexed properties [0], [1], ... *)
Fixpoint indexed_chars (i : nat) (s : string) : gmap string value :=
  match s with
  | EmptyString => ∅
  | String ch rest => <[pretty i := VStr (String ch EmptyString)]> (indexed_chars (S i) rest)
  end.

(** [{ ...x }]: the own enumerable properties of [x].  Functions, errors,
    booleans, symbols, [null] and [undefined] have none. *)
Definition spread (x : value) : gmap string value :=
  match x with
  | VObj o => o
  | VStr s => indexed_chars 0 s
  | _ => ∅
  end.

(* ===================================================================== *)
(** ** Property keys of the store *)
(* ===================================================================== *)

Inductive prop_key :=
| PStr (s : string)
| PSym (id : nat).

#[global] Instance prop_key_eq_dec : EqDecision prop_key.
Proof. solve_decision. Defined.

Definition prop_key_code (k : prop_key) : string + nat :=
  match k with
  | PStr s => inl s
  | PSym n => inr n
  end.

Definition prop_key_decode (c : string + nat) : prop_key :=
  match c with
  | inl s => PStr s
  | inr n => PSym n
  end.

#[global] Instance prop_key_countable : Countable prop_key.
Proof.
  apply (inj_countable' prop_key_code prop_key_decode).
  intros []; reflexivity.
Defined.

(** A symbol is its own property key; anything else is used through its
    string form. *)
Definition toPropertyKey (v : value) : prop_key :=
  match v with
  | VSym id _ => PSym id
  | _ => PStr (toString v)
  end.

(* ===================================================================== *)
(** ** Computations: state and exceptions *)
(* ===================================================================== *)

Inductive result (A : Type) :=
| Val (a : A)
| Exc (e : value).
Arguments Val {A} a.
Arguments Exc {A} e.

(** A computation reads and updates a state and either yields a value or
    throws; a [throw] keeps the state reached so far. *)
Definition M (S A : Type) : Type := S -> result A * S.

Definition ret {S A} (a : A) : M S A := fun s => (Val a, s).

Definition throw {S A} (e : value) : M S A := fun s => (Exc e, s).

Definition bind {S A B} (m : M S A) (k : A -> M S B) : M S B :=
  fun s =>
    match m s with
    | (Val a, s') => k a s'
    | (Exc e, s') => (Exc e, s')
    end.

Notation "'let!' x ':=' m 'in' k" := (bind m (fun x => k))
  (at level 10, x pattern, m at level 100, k at level 200).

(** [new TypeError(msg)] and [new Error(msg)] *)
Definition new_TypeError (msg : string) : value := VErr JsTypeError msg.
Definition new_Error (msg : string) : value := VErr JsError msg.

(* ===================================================================== *)
(** ** The host framework's store *)
(* ===================================================================== *)

(** Modelled from the spec: the host framework's context primitive
    ([provide] and [inject] of vue-demi) is imported, not defined, by the
    repository.  The resolver runs during the setup of a component; that
    component owns a table of published values and sees the tables of its
    ancestors, nearest first.  [invoked] is ghost state: the callbacks
    called so far, most recent first. *)
Record host := Host {
  provides : gmap prop_key value;
  ancestors : list (gmap prop_key value);
  invoked : list value
}.

(** Modelled from the spec: the lookup of the host store, which walks up
    the ancestors and stops at the nearest one that has the key. *)
Fixpoint lookup_chain (k : prop_key) (chain : list (gmap prop_key value)) : option value :=
  match chain with
  | [] => None
  | scope :: outer =>
      match scope !! k with
      | Some v => Some v
      | None => lookup_chain k outer
      end
  end.

Definition published (key : value) (h : host) : option value :=
  lookup_chain (toPropertyKey key) (ancestors h).

(** Modelled from the spec: setting up a child component; what the parent
    published joins the ancestor chain. *)
Definition enter_child (h : host) : host :=
  {| provides := ∅; ancestors := provides h :: ancestors h; invoked := invoked h |}.

(** [f()]: a callback completes as its body says and is recorded in the
    ghost log; calling anything else is a [TypeError]. *)
Definition call (f : value) (callee : string) : M host value :=
  fun h =>
    match f with
    | VFun body =>
        let h' := {| provides := provides h; ancestors := ancestors h; invoked := f :: invoked h |} in
        match body with
        | Returns v => (Val v, h')
        | Throws e => (Exc e, h')
        end
    | _ => (Exc (new_TypeError (callee ++ " is not a function")), h)
    end.

(** [f?.()] *)
Definition optional_call (f : value) (callee : string) : M host value :=
  if is_nullish f then ret VUndefined else call f callee.

(** Modelled from the spec: [provide(key, value)] of the host attaches the
    value to the table of the component being set up. *)
Definition provide (key v : value) : M host unit :=
  fun h =>
    (Val tt, {| provides := <[toPropertyKey key := v]> (provides h);
                ancestors := ancestors h; invoked := invoked h |}).

(** Modelled from the spec: [inject(key)] and
    [inject(key, defaultValue, treatDefaultAsFactory)] of the host give
    the nearest ancestor's value; without one, the default (called when it
    is a function and the flag is set), or [undefined] when no default was
    passed. *)
Definition inject (key : value) (dflt : option (value * bool)) : M host value :=
  fun h =>
    match published key h with
    | Some v => (Val v, h)
    | None =>
        match dflt with
        | Some (d, treatDefaultAsFactory) =>
            if treatDefaultAsFactory && is_function d
            then call d "defaultValue" h
            else (Val d, h)
        | None => (Val VUndefined, h)
        end
    end.

(** [p in x]: a [TypeError] on a primitive. *)
Definition has_property {S} (p : string) (x : value) : M S bool :=
  match x with
  | VObj o => ret (bool_decide (is_Some (o !! p)))
  | VFun _ | VErr _ _ => ret false
  | _ => throw (new_TypeError
                  ("Cannot use 'in' operator to search for '" ++ p ++ "' in " ++ toString x))
  end.

(** [Symbol()]: the state of the factory is the supply of fresh symbols. *)
Definition Symbol : M nat value := fun n => (Val (VSym n ""), S n).

(* ===================================================================== *)
(** ** [defineUseDependencyInjection] *)
(* ===================================================================== *)

(** What the returned function closes over. *)
Record closure := Closure {
  injectKey : value;
  initializer : value;
  options : value
}.

(** A positional argument; one that was not passed is [undefined]. *)
Definition arg (n : nat) (args : list value) : value :=
  default VUndefined (args !! n).

Definition first_argument_message : string :=
  "[defineUseDependencyInjection] first argument must be a initializer function when two arguments are provided".

Definition defineUseDependencyInjection (args : list value) : M nat closure :=
  let arg0 := arg 0 args in
  let arg1 := arg 1 args in
  let! bound :=
    (* two arguments *)
    if negb (is_nullish arg0) && negb (is_nullish arg1) then
      if negb (is_function arg0)
      then throw (new_TypeError first_argument_message)
      else ret (arg0, arg1)
    (* one argument *)
    else if negb (is_nullish arg0) then
      if is_function arg0
      then ret (arg0, VObj ∅)
      else ret (VUndefined, arg0)
    (* no argument do nothing *)
    else ret (VUndefined, VObj ∅) in
  let initializer := bound.1 in
  let options := bound.2 in
  let! injectKey :=
    (let key := get_prop options "key" in
     if is_nullish key then Symbol else ret key) in
  ret {| injectKey := injectKey; initializer := initializer; options := options |}.

(* ===================================================================== *)
(** ** [UseDependencyInjection], the returned resolver *)
(* ===================================================================== *)

Definition second_argument_message : string :=
  "[useDependencyInjection] second argument must be a function when mode is 'provide'".

Definition not_initialized_message (injectKey : value) : string :=
  "UseDependencyInjection value `" ++ toString injectKey ++ "` is not initialized".

(** [overrideInitializer?.() ?? initializer?.()] *)
Definition resolve_value (overrideInitializer initializer : value) : M host value :=
  let! v := optional_call overrideInitializer "overrideInitializer" in
  if is_nullish v then optional_call initializer "initializer" else ret v.

(** The per-call options of inject mode: the second argument after the
    literal ['inject'], the first argument otherwise, [{}] when absent. *)
Definition overrideOptions_of (args : list value) : value :=
  if strict_eq_string (arg 0 args) "inject"
  then nullish_or (arg 1 args) (VObj ∅)
  else nullish_or (arg 0 args) (VObj ∅).

(** [finalOptions]: a copy of the bound options, updated from the per-call
    options. *)
Definition merge_options (options overrideOptions : value) : M host (gmap string value) :=
  let finalOptions := spread options in
  (* override options has higher priority than options *)
  let! has_injectDefault := has_property "injectDefault" overrideOptions in
  if has_injectDefault && negb (is_nullish (get_prop overrideOptions "injectDefault")) then
    ret (<["throwOnNoProvider" := VUndefined]>
           (<["injectDefault" := get_prop overrideOptions "injectDefault"]> finalOptions))
  else
    let! has_throwOnNoProvider := has_property "throwOnNoProvider" overrideOptions in
    if has_throwOnNoProvider && negb (is_nullish (get_prop overrideOptions "throwOnNoProvider")) then
      ret (<["injectDefault" := VUndefined]>
             (<["throwOnNoProvider" := get_prop overrideOptions "throwOnNoProvider"]> finalOptions))
    else ret finalOptions.

Definition UseDependencyInjection (c : closure) (args : list value) : M host value :=
  let arg0 := arg 0 args in
  let arg1 := arg 1 args in
  (* mode: 'provide' *)
  if strict_eq_string arg0 "provide" then
    if negb (is_nullish arg1) && negb (is_function arg1)
    then throw (new_TypeError second_argument_message)
    else
      let overrideInitializer := arg1 in
      let! v := resolve_value overrideInitializer (initializer c) in
      if is_nullish v
      then throw (new_Error (not_initialized_message (injectKey c)))
      else
        let! _ := provide (injectKey c) v in
        ret v
  (* mode: 'inject' *)
  else
    let overrideOptions := overrideOptions_of args in
    let! finalOptions := merge_options (options c) overrideOptions in
    if negb (is_nullish (prop finalOptions "injectDefault")) then
      inject (injectKey c) (Some (prop finalOptions "injectDefault", true))
    else
      let! v := inject (injectKey c) None in
      if is_nullish v
         && bool_decide (is_Some (finalOptions !! "throwOnNoProvider"))
         && negb (is_nullish (prop finalOptions "throwOnNoProvider"))
      then
        let! e := call (prop finalOptions "throwOnNoProvider") "finalOptions.throwOnNoProvider" in
        throw e
      else ret v.

(* ===================================================================== *)
(** ** The default policy, as the specification names it *)
(* ===================================================================== *)

Inductive policy :=
| NoPolicy
| InjectDefault (d : value)
| ThrowOnNoProvider (errorFactory : value).

(** The policy a table of options carries: a non-absent [injectDefault], else
    a non-absent [throwOnNoProvider], else none. *)
Definition policy_of (o : gmap string value) : policy :=
  if negb (is_nullish (prop o "injectDefault")) then InjectDefault (prop o "injectDefault")
  else if negb (is_nullish (prop o "throwOnNoProvider")) then ThrowOnNoProvider (prop o "throwOnNoProvider")
  else NoPolicy.

(** The precedence rule of the specification: a non-absent [injectDefault]
    of the override wins, else a non-absent [throwOnNoProvider] of the
    override, else the policy of the base configuration. *)
Definition effective_policy (base override : gmap string value) : policy :=
  if negb (is_nullish (prop override "injectDefault")) then
    InjectDefault (prop override "injectDefault")
  else if negb (is_nullish (prop override "throwOnNoProvider")) then
    ThrowOnNoProvider (prop override "throwOnNoProvider")
  else policy_of base.

(** Consume mode as the specification describes it, by policy. *)
Definition consume_by_policy (key : value) (p : policy) : M host value :=
  match p with
  | InjectDefault d => inject key (Some (d, true))
  | ThrowOnNoProvider errorFactory =>
      let! v := inject key None in
      if is_nullish v
      then (let! e := call errorFactory "finalOptions.throwOnNoProvider" in throw e)
      else ret v
  | NoPolicy => inject key None
  end.

(** The value publish mode resolves, as the specification words it: the
    override initializer's result when one is given, else the bound
    initializer's, else none. *)
Definition resolve_value_as_specified (overrideInitializer initializer : value) : M host value :=
  if negb (is_nullish overrideInitializer) then call overrideInitializer "overrideInitializer"
  else if negb (is_nullish initializer) then call initializer "initializer"
  else ret VUndefined.

(** What a callback's invocation leaves behind. *)
Definition log_call (f : value) (h : host) : host :=
  {| provides := provides h; ancestors := ancestors h; invoked := f :: invoked h |}.

Definition completes (body : completion) : result value :=
  match body with
  | Returns v => Val v
  | Throws e => Exc e
  end.

Definition publish (key v : value) (h : host) : host :=
  {| provides := <[toPropertyKey key := v]> (provides h);
     ancestors := ancestors h; invoked := invoked h |}.

(* ===================================================================== *)
(** ** Running examples: the fixtures of the test suite *)
(* ===================================================================== *)

Definition msg_object (tag : string) : value := VObj {[ "msg" := VStr tag ]}.

Definition test_initializer : value := VFun (Returns (msg_object "[initializer]")).
Definition test_overrideInitializer : value := VFun (Returns (msg_object "[overrideInitializer]")).
Definition D1 : value := VFun (Returns (msg_object "[optionsWithInjectDefault]")).
Definition D2 : value := VFun (Returns (msg_object "[overrideOptionsWithInjectDefault]")).
Definition E1 : value := VFun (Returns (new_Error "[optionsWithThrowOnNoProvider] No provider found")).
Definition E2 : value := VFun (Returns (new_Error "[overrideOptionsWithThrowOnNoProvider] No provider found")).

Definition optionsWithInjectDefault : gmap string value := {[ "injectDefault" := D1 ]}.
Definition optionsWithThrowOnNoProvider : gmap string value := {[ "throwOnNoProvider" := E1 ]}.
Definition overrideOptionsWithInjectDefault : gmap string value := {[ "injectDefault" := D2 ]}.
Definition overrideOptionsWithThrowOnNoProvider : gmap string value := {[ "throwOnNoProvider" := E2 ]}.

(** A component with no ancestor that published anything. *)
Definition root_host : host := {| provides := ∅; ancestors := []; invoked := [] |}.

Definition null_override : value := VFun (Returns VNull).
Definition throwing_default : value := VFun (Throws (new_Error "boom")).

Definition u_with_default : closure :=
  {| injectKey := VSym 0 ""; initializer := test_initializer; options := VObj optionsWithInjectDefault |}.
Definition u_with_throw : closure :=
  {| injectKey := VSym 0 ""; initializer := test_initializer; options := VObj optionsWithThrowOnNoProvider |}.
Definition u_throwing_default : closure :=
  {| injectKey := VSym 0 ""; initializer := VUndefined;
     options := VObj {[ "injectDefault" := throwing_default ]} |}.
Definition u_not_initialized : closure :=
  {| injectKey := VSym 0 ""; initializer := VUndefined; options := VObj ∅ |}.

(** What an error factory makes the resolver throw: the error it returns,
    or whatever it throws itself. *)
Definition thrown (body : completion) : value :=
  match body with
  | Returns e => e
  | Throws e => e
  end.

Definition u_initialized : closure :=
  {| injectKey := VSym 0 ""; initializer := test_initializer; options := VObj ∅ |}.

(** The child of a component that called the resolver in provide mode. *)
Definition child_of_provider : host :=
  enter_child (UseDependencyInjection u_initialized [VStr "provide"] root_host).2.

(** One row of the test suite's table: build the resolver as the tests do
    ([initializer] alone, or with [options]), let the parent provide or not,
    and call the resolver in the child with or without the literal
    ['inject'] and with or without override options. *)
Definition run_case (provider : bool) (options overrideOptions : option (gmap string value))
    (setMode : bool) : result value :=
  let factory_args :=
    match options with
    | None => [test_initializer]
    | Some o => [test_initializer; VObj o]
    end in
  match defineUseDependencyInjection factory_args 0 with
  | (Exc e, _) => Exc e
  | (Val u, _) =>
      let parent :=
        if provider then (UseDependencyInjection u [VStr "provide"] root_host).2 else root_host in
      let child_args :=
        match setMode, overrideOptions with
        | true, None => [VStr "inject"]
        | true, Some ov => [VStr "inject"; VObj ov]
        | false, None => []
        | false, Some ov => [VObj ov]
        end in
      (UseDependencyInjection u child_args (enter_child parent)).1
  end.

Definition default_1 : result value := Val (msg_object "[optionsWithInjectDefault]").
Definition default_2 : result value := Val (msg_object "[overrideOptionsWithInjectDefault]").
Definition error_1 : result value :=
  Exc (new_Error "[optionsWithThrowOnNoProvider] No provider found").
Definition error_2 : result value :=
  Exc (new_Error "[overrideOptionsWithThrowOnNoProvider] No provider found").

(** The eighteen rows: options, override options, setMode. *)
Definition cases : list (option (gmap string value) * option (gmap string value) * bool) :=
  let none := @None (gmap string value) in
  [ (none, none, false); (none, none, true);
    (none, Some overrideOptionsWithInjectDefault, false);
    (none, Some overrideOptionsWithInjectDefault, true);
    (none, Some overrideOptionsWithThrowOnNoProvider, false);
    (none, Some overrideOptionsWithThrowOnNoProvider, true);
    (Some optionsWithInjectDefault, none, false);
    (Some optionsWithInjectDefault, none, true);
    (Some optionsWithInjectDefault, Some overrideOptionsWithInjectDefault, false);
    (Some optionsWithInjectDefault, Some overrideOptionsWithInjectDefault, true);
    (Some optionsWithInjectDefault, Some overrideOptionsWithThrowOnNoProvider, false);
    (Some optionsWithInjectDefault, Some overrideOptionsWithThrowOnNoProvider, true);
    (Some optionsWithThrowOnNoProvider, none, false);
    (Some optionsWithThrowOnNoProvider, none, true);
    (Some optionsWithThrowOnNoProvider, Some overrideOptionsWithInjectDefault, false);
    (Some optionsWithThrowOnNoProvider, Some overrideOptionsWithInjectDefault, true);
    (Some optionsWithThrowOnNoProvider, Some overrideOptionsWithThrowOnNoProvider, false);
    (Some optionsWithThrowOnNoProvider, Some overrideOptionsWithThrowOnNoProvider, true) ].

Definition expected_without_provider : list (result value) :=
  [ Val VUndefined; Val VUndefined; default_2; default_2; error_2; error_2;
    default_1; default_1; default_2; default_2; error_2; error_2;
    error_1; error_1; default_2; default_2; error_2; error_2 ].

(** The host seen [k] levels below a component, when none of the components
    in between publishes anything. *)
Definition descendant (k : nat) (h : host) : host := Nat.iter k enter_child h.

(** A value that is neither an object nor absent: the [in] operator rejects
    it. *)
Definition is_primitive (v : value) : bool :=
  match v with
  | VBool _ | VStr _ | VSym _ _ => true
  | _ => false
  end.

(** Further fixtures: a resolver bound to an explicit string key, one whose
    base options carry both policies, one whose error factory is not
    callable, and a store in which an ancestor attached [null]. *)
Definition u_string_key : closure :=
  {| injectKey := VStr "shared"; initializer := test_initializer;
     options := VObj {[ "key" := VStr "shared" ]} |}.
Definition u_other_symbol : closure :=
  {| injectKey := VSym 1 ""; initializer := test_overrideInitializer; options := VObj ∅ |}.
Definition u_both_policies : closure :=
  {| injectKey := VSym 0 ""; initializer := VUndefined;
     options := VObj (<[ "throwOnNoProvider" := E1 ]> optionsWithInjectDefault) |}.
Definition u_bad_error_factory : closure :=
  {| injectKey := VSym 0 ""; initializer := VUndefined;
     options := VObj {[ "throwOnNoProvider" := VStr "no provider" ]} |}.
Definition null_provided_host : host :=
  {| provides := ∅; ancestors := [ {[ PSym 0 := VNull ]} ]; invoked := [] |}.

(** The embedding agrees with the test suite's table when no ancestor
    provides, and returns the provided value on every row when one does. *)
Example table_without_provider :
  map (fun row => run_case false row.1.1 row.1.2 row.2) cases = expected_without_provider.
Proof. vm_compute. reflexivity. Qed.

Example table_with_provider :
  map (fun row => run_case true row.1.1 row.1.2 row.2) cases
  = replicate 18 (Val (msg_object "[initializer]")).
Proof. vm_compute. reflexivity. Qed.

(** A per-call argument that is neither a mode nor an object is rejected by
    the [in] operator. *)
Example primitive_override_is_a_type_error :
  UseDependencyInjection u_initialized [VStr "injcet"] root_host
  = (Exc (new_TypeError "Cannot use 'in' operator to search for 'injectDefault' in injcet"),
     root_host).
Proof. reflexivity. Qed.

Example factory_one_initializer :
  defineUseDependencyInjection [test_initializer] 0
  = (Val {| injectKey := VSym 0 ""; initializer := test_initializer; options := VObj ∅ |}, 1).
Proof. reflexivity. Qed.

Example factory_initializer_not_a_function :
  defineUseDependencyInjection [VStr "initializer"; VObj ∅] 0
  = (Exc (new_TypeError first_argument_message), 0).
Proof. reflexivity. Qed.

Example parent_provides_child_injects :
  let (r, h) := UseDependencyInjection u_initialized [VStr "provide"] root_host in
  r = Val (msg_object "[initializer]")
  /\ (UseDependencyInjection u_initialized [] (enter_child h)).1 = Val (msg_object "[initializer]").
Proof. vm_compute. split; reflexivity. Qed.

Example override_throw_beats_base_default :
  (UseDependencyInjection
     {| injectKey := VSym 0 ""; initializer := test_initializer; options := VObj optionsWithInjectDefault |}
     [VObj overrideOptionsWithThrowOnNoProvider] root_host).1
  = Exc (new_Error "[overrideOptionsWithThrowOnNoProvider] No provider found").
Proof. vm_compute. reflexivity. Qed.

(* ===================================================================== *)
(** ** Basic facts about property reads and the merge *)
(* ===================================================================== *)

Lemma present_is_own (o : gmap string value) (p : string) :
  is_nullish (prop o p) = false -> bool_decide (is_Some (o !! p)) = true.
Proof.
  unfold prop. destruct (o !! p) as [v|].
  - intros _. apply bool_decide_eq_true_2. eauto.
  - discriminate.
Qed.

Lemma prop_insert_eq (o : gmap string value) (p : string) (v : value) :
  prop (<[p := v]> o) p = v.
Proof. unfold prop. by rewrite lookup_insert_eq. Qed.

Lemma prop_insert_ne (o : gmap string value) (p q : string) (v : value) :
  p <> q -> prop (<[p := v]> o) q = prop o q.
Proof. intros Hne. unfold prop. by rewrite lookup_insert_ne. Qed.

(** The merge never throws on an object, leaves the store alone, and its
    result carries exactly the policy of the precedence rule. *)
Lemma merge_options_object (base : value) (ov : gmap string value) (h : host) :
  exists finalOptions,
    merge_options base (VObj ov) h = (Val finalOptions, h)
    /\ policy_of finalOptions = effective_policy (spread base) ov
    /\ (is_nullish (prop ov "injectDefault") = false ->
        finalOptions !! "throwOnNoProvider" = Some VUndefined)
    /\ (is_nullish (prop ov "injectDefault") = true ->
        is_nullish (prop ov "throwOnNoProvider") = false ->
        finalOptions !! "injectDefault" = Some VUndefined)
    /\ (is_nullish (prop ov "injectDefault") = true ->
        is_nullish (prop ov "throwOnNoProvider") = true ->
        finalOptions = spread base).
Proof.
  unfold merge_options, bind, has_property, ret, get_prop, effective_policy.
  destruct (is_nullish (prop ov "injectDefault")) eqn:Hd.
  - rewrite andb_false_r.
    destruct (is_nullish (prop ov "throwOnNoProvider")) eqn:He.
    + rewrite andb_false_r. eexists. split; [reflexivity|].
      repeat split; try discriminate; auto.
    + rewrite (present_is_own _ _ He). simpl. eexists. split; [reflexivity|].
      repeat split; try discriminate.
      * unfold policy_of. rewrite prop_insert_eq. simpl.
        rewrite prop_insert_ne by discriminate. rewrite prop_insert_eq.
        by rewrite He.
      * intros _ _. apply lookup_insert_eq.
  - rewrite (present_is_own _ _ Hd). simpl. eexists. split; [reflexivity|].
    repeat split; try discriminate.
    + unfold policy_of. rewrite prop_insert_ne by discriminate.
      rewrite prop_insert_eq. by rewrite Hd.
    + intros _. apply lookup_insert_eq.
Qed.

(** Inject mode is the specification's dispatch on the effective policy. *)
Lemma inject_mode_by_policy (c : closure) (args : list value) (ov : gmap string value) (h : host) :
  strict_eq_string (arg 0 args) "provide" = false ->
  overrideOptions_of args = VObj ov ->
  UseDependencyInjection c args h
  = consume_by_policy (injectKey c) (effective_policy (spread (options c)) ov) h.
Proof.
  intros Hmode Hov. unfold UseDependencyInjection. rewrite Hmode, Hov.
  destruct (merge_options_object (options c) ov h) as (fo & Hm & Hp & _).
  rewrite <- Hp. unfold bind at 1. rewrite Hm.
  unfold policy_of.
  destruct (is_nullish (prop fo "injectDefault")) eqn:Hd; simpl; [|reflexivity].
  destruct (is_nullish (prop fo "throwOnNoProvider")) eqn:He; simpl.
  - unfold bind, ret.
    destruct (inject (injectKey c) None h) as [[v|e] h']; [|reflexivity].
    by rewrite andb_false_r.
  - rewrite (present_is_own _ _ He).
    unfold bind. destruct (inject (injectKey c) None h) as [[v|e] h']; [|reflexivity].
    by rewrite !andb_true_r.
Qed.

(** Callbacks are recorded but never touch the published tables. *)
Lemma call_store (f : value) (callee : string) (h h' : host) (r : result value) :
  call f callee h = (r, h') -> provides h' = provides h /\ ancestors h' = ancestors h.
Proof.
  unfold call. destruct f; try (intros [= <- <-]; done).
  destruct body; intros [= <- <-]; done.
Qed.

Lemma optional_call_store (f : value) (callee : string) (h h' : host) (r : result value) :
  optional_call f callee h = (r, h') -> provides h' = provides h /\ ancestors h' = ancestors h.
Proof.
  unfold optional_call. destruct (is_nullish f).
  - intros [= <- <-]; done.
  - apply call_store.
Qed.

Lemma resolve_value_store (o i : value) (h h' : host) (r : result value) :
  resolve_value o i h = (r, h') -> provides h' = provides h /\ ancestors h' = ancestors h.
Proof.
  unfold resolve_value, bind.
  destruct (optional_call o "overrideInitializer" h) as [[v|e] h1] eqn:E1.
  - apply optional_call_store in E1 as [Hp Ha].
    destruct (is_nullish v).
    + intros E2. apply optional_call_store in E2 as [Hp2 Ha2]. split; congruence.
    + intros [= <- <-]; done.
  - apply optional_call_store in E1 as [Hp Ha]. intros [= <- <-]; done.
Qed.

(** Provide mode once the second argument has passed its check. *)
Lemma provide_mode_unfold (c : closure) (args : list value) (h : host) :
  strict_eq_string (arg 0 args) "provide" = true ->
  is_nullish (arg 1 args) || is_function (arg 1 args) = true ->
  UseDependencyInjection c args h
  = match resolve_value (arg 1 args) (initializer c) h with
    | (Val v, h') =>
        if is_nullish v
        then (Exc (new_Error (not_initialized_message (injectKey c))), h')
        else (Val v, publish (injectKey c) v h')
    | (Exc e, h') => (Exc e, h')
    end.
Proof.
  intros Hmode Hok. unfold UseDependencyInjection. rewrite Hmode.
  replace (negb (is_nullish (arg 1 args)) && negb (is_function (arg 1 args))) with false
    by (destruct (is_nullish (arg 1 args)), (is_function (arg 1 args)); done).
  unfold bind at 1.
  destruct (resolve_value (arg 1 args) (initializer c) h) as [[v|e] h']; [|reflexivity].
  destruct (is_nullish v); reflexivity.
Qed.

(** Whatever provide mode returns is non-absent, is in the component's own
    table afterwards, and is what a child component finds. *)
Lemma provide_mode_publishes_present (c : closure) (args : list value) (h h' : host) (v : value) :
  strict_eq_string (arg 0 args) "provide" = true ->
  UseDependencyInjection c args h = (Val v, h') ->
  is_nullish v = false
  /\ provides h' !! toPropertyKey (injectKey c) = Some v
  /\ published (injectKey c) (enter_child h') = Some v.
Proof.
  intros Hmode. unfold UseDependencyInjection. rewrite Hmode.
  destruct (negb (is_nullish (arg 1 args)) && negb (is_function (arg 1 args))); [discriminate|].
  unfold bind at 1.
  destruct (resolve_value (arg 1 args) (initializer c) h) as [[w|e] h1]; [|discriminate].
  destruct (is_nullish w) eqn:Hw; [discriminate|].
  intros [= <- <-]. split; [done|].
  unfold published, enter_child; simpl. rewrite lookup_insert_eq. done.
Qed.

(* ===================================================================== *)
(** ** Inject mode: the effective policy *)
(* ===================================================================== *)

(** C1: in inject mode the bound options and the per-call options are merged
    so that a non-absent [injectDefault] of the override becomes the policy
    and the base's [throwOnNoProvider] is cleared; else a non-absent
    [throwOnNoProvider] of the override becomes the policy and the base's
    [injectDefault] is cleared; else the base's policy applies unchanged;
    and the call behaves as that policy says.  In particular an override
    [throwOnNoProvider] makes the call throw what that factory produces when
    nothing is published, whatever [injectDefault] the base has. *)
Theorem C1_effective_policy_precedence
    (c : closure) (args : list value) (ov : gmap string value) (h : host) :
  strict_eq_string (arg 0 args) "provide" = false ->
  overrideOptions_of args = VObj ov ->
  (exists finalOptions,
      merge_options (options c) (VObj ov) h = (Val finalOptions, h)
      /\ policy_of finalOptions = effective_policy (spread (options c)) ov
      /\ (is_nullish (prop ov "injectDefault") = false ->
          finalOptions !! "throwOnNoProvider" = Some VUndefined)
      /\ (is_nullish (prop ov "injectDefault") = true ->
          is_nullish (prop ov "throwOnNoProvider") = false ->
          finalOptions !! "injectDefault" = Some VUndefined)
      /\ (is_nullish (prop ov "injectDefault") = true ->
          is_nullish (prop ov "throwOnNoProvider") = true ->
          finalOptions = spread (options c)))
  /\ UseDependencyInjection c args h
     = consume_by_policy (injectKey c) (effective_policy (spread (options c)) ov) h
  /\ (forall body,
        is_nullish (prop ov "injectDefault") = true ->
        prop ov "throwOnNoProvider" = VFun body ->
        published (injectKey c) h = None ->
        UseDependencyInjection c args h = (Exc (thrown body), log_call (VFun body) h))
  /\ (forall d2,
        prop ov "injectDefault" = VFun (Returns d2) ->
        published (injectKey c) h = None ->
        UseDependencyInjection c args h = (Val d2, log_call (VFun (Returns d2)) h)).
Proof.
  intros Hmode Hov.
  split; [apply merge_options_object|].
  split; [by apply inject_mode_by_policy|].
  split.
  - intros body Hd He Hpub.
    rewrite (inject_mode_by_policy c args ov h Hmode Hov).
    unfold effective_policy. rewrite Hd, He. simpl.
    unfold bind, inject. rewrite Hpub. simpl.
    destruct body; reflexivity.
  - intros d2 Hd Hpub.
    rewrite (inject_mode_by_policy c args ov h Hmode Hov).
    unfold effective_policy. rewrite Hd. simpl.
    unfold inject. rewrite Hpub. reflexivity.
Qed.

Lemma C1_witness :
  strict_eq_string (arg 0 [VObj overrideOptionsWithThrowOnNoProvider]) "provide" = false
  /\ overrideOptions_of [VObj overrideOptionsWithThrowOnNoProvider]
     = VObj overrideOptionsWithThrowOnNoProvider
  /\ UseDependencyInjection u_with_default [VObj overrideOptionsWithThrowOnNoProvider] root_host
     = (Exc (new_Error "[overrideOptionsWithThrowOnNoProvider] No provider found"),
        log_call E2 root_host).
Proof.
  split; [reflexivity|]. split; [reflexivity|].
  apply (proj1 (proj2 (proj2
    (C1_effective_policy_precedence u_with_default
       [VObj overrideOptionsWithThrowOnNoProvider] overrideOptionsWithThrowOnNoProvider
       root_host eq_refl eq_refl)))
    (Returns (new_Error "[overrideOptionsWithThrowOnNoProvider] No provider found")));
    reflexivity.
Defined.

(** C5 (as amended): when the effective policy is [injectDefault] the call
    raises no error of its own.  A published value is returned; with none, a
    default that is not callable is returned as it is, and a default that is
    a factory is invoked and the call completes as that invocation does:
    with the factory's result, or with the exception the factory throws. *)
Theorem C5_inject_default_completion
    (c : closure) (args : list value) (ov : gmap string value) (h : host) (d : value) :
  strict_eq_string (arg 0 args) "provide" = false ->
  overrideOptions_of args = VObj ov ->
  effective_policy (spread (options c)) ov = InjectDefault d ->
  UseDependencyInjection c args h
  = match published (injectKey c) h with
    | Some v => (Val v, h)
    | None =>
        match d with
        | VFun body => (completes body, log_call d h)
        | _ => (Val d, h)
        end
    end.
Proof.
  intros Hmode Hov Hpol.
  rewrite (inject_mode_by_policy c args ov h Hmode Hov), Hpol.
  unfold consume_by_policy, inject.
  destruct (published (injectKey c) h); [reflexivity|].
  destruct d; try reflexivity.
  simpl. destruct body; reflexivity.
Qed.

Lemma C5_witness :
  strict_eq_string (arg 0 [VStr "inject"]) "provide" = false
  /\ overrideOptions_of [VStr "inject"] = VObj ∅
  /\ effective_policy (spread (options u_with_default)) ∅ = InjectDefault D1
  /\ UseDependencyInjection u_with_default [VStr "inject"] root_host
     = (Val (msg_object "[optionsWithInjectDefault]"), log_call D1 root_host).
Proof.
  split; [reflexivity|]. split; [reflexivity|]. split; [reflexivity|].
  apply (C5_inject_default_completion u_with_default [VStr "inject"] ∅ root_host D1
           eq_refl eq_refl eq_refl).
Defined.

(** C5, as stated, fails: a default factory that throws makes the call
    throw although the effective policy is [injectDefault]. *)
Lemma C5_counterexample :
  effective_policy (spread (options u_throwing_default)) ∅ = InjectDefault throwing_default
  /\ UseDependencyInjection u_throwing_default [] root_host
     = (Exc (new_Error "boom"), log_call throwing_default root_host).
Proof. split; reflexivity. Qed.

(** C6: when some ancestor published a value for the binding key, inject
    mode returns the nearest such value and leaves the store as it was,
    whatever the bound options and the per-call options say. *)
Theorem C6_published_value_wins
    (c : closure) (args : list value) (ov : gmap string value) (h : host) (v : value) :
  strict_eq_string (arg 0 args) "provide" = false ->
  overrideOptions_of args = VObj ov ->
  published (injectKey c) h = Some v ->
  is_nullish v = false ->
  UseDependencyInjection c args h = (Val v, h).
Proof.
  intros Hmode Hov Hpub Hv.
  rewrite (inject_mode_by_policy c args ov h Hmode Hov).
  destruct (effective_policy (spread (options c)) ov) as [|d|e];
    unfold consume_by_policy, bind, inject; rewrite Hpub; try reflexivity.
  by rewrite Hv.
Qed.

(** C7: with no policy in the bound options or in the per-call options and
    nothing published, inject mode returns [undefined] and does not throw,
    both when called with no argument and when called with ['inject']. *)
Theorem C7_no_policy_no_publisher (c : closure) (h : host) :
  policy_of (spread (options c)) = NoPolicy ->
  published (injectKey c) h = None ->
  UseDependencyInjection c [] h = (Val VUndefined, h)
  /\ UseDependencyInjection c [VStr "inject"] h = (Val VUndefined, h)
  /\ (forall args ov,
        strict_eq_string (arg 0 args) "provide" = false ->
        overrideOptions_of args = VObj ov ->
        policy_of ov = NoPolicy ->
        UseDependencyInjection c args h = (Val VUndefined, h)).
Proof.
  intros Hbase Hpub.
  assert (Hgen : forall args ov,
    strict_eq_string (arg 0 args) "provide" = false ->
    overrideOptions_of args = VObj ov ->
    policy_of ov = NoPolicy ->
    UseDependencyInjection c args h = (Val VUndefined, h)).
  { intros args ov Hmode Hov Hnone.
    rewrite (inject_mode_by_policy c args ov h Hmode Hov).
    assert (effective_policy (spread (options c)) ov = NoPolicy) as ->.
    { revert Hnone. unfold effective_policy, policy_of.
      destruct (is_nullish (prop ov "injectDefault")); simpl; [|discriminate].
      destruct (is_nullish (prop ov "throwOnNoProvider")); simpl; [|discriminate].
      intros _. exact Hbase. }
    unfold consume_by_policy, inject. by rewrite Hpub. }
  split; [|split]; [ | | exact Hgen].
  - by apply (Hgen [] ∅).
  - by apply (Hgen [VStr "inject"] ∅).
Qed.

Lemma C7_witness :
  policy_of (spread (options u_initialized)) = NoPolicy
  /\ published (injectKey u_initialized) root_host = None
  /\ UseDependencyInjection u_initialized [] root_host = (Val VUndefined, root_host)
  /\ UseDependencyInjection u_initialized [VStr "inject"] root_host = (Val VUndefined, root_host).
Proof.
  split; [reflexivity|]. split; [reflexivity|].
  pose proof (C7_no_policy_no_publisher u_initialized root_host eq_refl eq_refl) as H.
  split; [exact (proj1 H) | exact (proj1 (proj2 H))].
Defined.

Lemma C6_witness :
  strict_eq_string (arg 0 [VObj overrideOptionsWithInjectDefault]) "provide" = false
  /\ overrideOptions_of [VObj overrideOptionsWithInjectDefault]
     = VObj overrideOptionsWithInjectDefault
  /\ published (injectKey u_with_throw) child_of_provider = Some (msg_object "[initializer]")
  /\ is_nullish (msg_object "[initializer]") = false
  /\ UseDependencyInjection u_with_throw [VObj overrideOptionsWithInjectDefault] child_of_provider
     = (Val (msg_object "[initializer]"), child_of_provider).
Proof.
  split; [reflexivity|]. split; [reflexivity|]. split; [reflexivity|]. split; [reflexivity|].
  apply (C6_published_value_wins u_with_throw [VObj overrideOptionsWithInjectDefault]
           overrideOptionsWithInjectDefault child_of_provider (msg_object "[initializer]")
           eq_refl eq_refl eq_refl eq_refl).
Defined.

(* ===================================================================== *)
(** ** Provide mode *)
(* ===================================================================== *)

(** C8: in provide mode a second argument that is present and not a function
    makes the call throw the [TypeError] of the second-argument check,
    whatever initializer is bound; the store and the log of invoked
    callbacks are as before, so nothing was resolved or published. *)
Theorem C8_second_argument_must_be_function (c : closure) (args : list value) (h : host) :
  strict_eq_string (arg 0 args) "provide" = true ->
  is_nullish (arg 1 args) = false ->
  is_function (arg 1 args) = false ->
  UseDependencyInjection c args h = (Exc (new_TypeError second_argument_message), h).
Proof.
  intros Hmode Hpresent Hfun. unfold UseDependencyInjection.
  rewrite Hmode, Hpresent, Hfun. reflexivity.
Qed.

Lemma C8_witness :
  strict_eq_string (arg 0 [VStr "provide"; VStr "overrideInitializer"]) "provide" = true
  /\ is_nullish (arg 1 [VStr "provide"; VStr "overrideInitializer"]) = false
  /\ is_function (arg 1 [VStr "provide"; VStr "overrideInitializer"]) = false
  /\ UseDependencyInjection u_initialized [VStr "provide"; VStr "overrideInitializer"] root_host
     = (Exc (VErr JsTypeError
               "[useDependencyInjection] second argument must be a function when mode is 'provide'"),
        root_host).
Proof.
  split; [reflexivity|]. split; [reflexivity|]. split; [reflexivity|].
  apply (C8_second_argument_must_be_function u_initialized
           [VStr "provide"; VStr "overrideInitializer"] root_host eq_refl eq_refl eq_refl).
Defined.

(** C2 (as amended): the value to publish is resolved in this order.  An
    override initializer, when given, is invoked, and a non-absent result of
    it is the resolved value.  Otherwise (no override initializer, or one
    whose result is absent) the bound initializer, when given, is invoked
    and its result is the resolved value; with no bound initializer no
    value is resolved. *)
Theorem C2_resolution_order (overrideInitializer bound : value) (h : host) :
  (is_nullish overrideInitializer = true ->
     resolve_value overrideInitializer bound h = optional_call bound "initializer" h)
  /\ (forall v, overrideInitializer = VFun (Returns v) -> is_nullish v = false ->
       resolve_value overrideInitializer bound h = (Val v, log_call overrideInitializer h))
  /\ (forall v, overrideInitializer = VFun (Returns v) -> is_nullish v = true ->
       resolve_value overrideInitializer bound h
       = optional_call bound "initializer" (log_call overrideInitializer h))
  /\ (forall h0, is_nullish bound = true ->
       optional_call bound "initializer" h0 = (Val VUndefined, h0))
  /\ (forall h0 body, bound = VFun body ->
       optional_call bound "initializer" h0 = (completes body, log_call bound h0)).
Proof.
  repeat split.
  - intros Hn. unfold resolve_value, bind, optional_call at 1. rewrite Hn. reflexivity.
  - intros v -> Hv. unfold resolve_value, bind, optional_call, call. simpl.
    rewrite Hv. reflexivity.
  - intros v -> Hv. unfold resolve_value, bind, optional_call at 1, call. simpl.
    rewrite Hv. reflexivity.
  - intros h0 Hn. unfold optional_call. rewrite Hn. reflexivity.
  - intros h0 body ->. unfold optional_call, call. simpl. destruct body; reflexivity.
Qed.

Lemma C2_witness :
  is_nullish VUndefined = true
  /\ resolve_value VUndefined test_initializer root_host
     = (Val (msg_object "[initializer]"), log_call test_initializer root_host)
  /\ resolve_value test_overrideInitializer test_initializer root_host
     = (Val (msg_object "[overrideInitializer]"), log_call test_overrideInitializer root_host).
Proof.
  pose proof (C2_resolution_order VUndefined test_initializer root_host) as Habsent.
  pose proof (C2_resolution_order test_overrideInitializer test_initializer root_host) as Hgiven.
  split; [reflexivity|]. split.
  - rewrite (proj1 Habsent eq_refl). reflexivity.
  - apply (proj1 (proj2 Hgiven) (msg_object "[overrideInitializer]") eq_refl eq_refl).
Defined.

(** C2, as stated, fails: an override initializer that is given and returns
    [null] is invoked, yet the value resolved and published is the bound
    initializer's. *)
Lemma C2_counterexample :
  resolve_value_as_specified null_override test_initializer root_host
  = (Val VNull, log_call null_override root_host)
  /\ resolve_value null_override test_initializer root_host
     = (Val (msg_object "[initializer]"),
        log_call test_initializer (log_call null_override root_host))
  /\ UseDependencyInjection u_initialized [VStr "provide"; null_override] root_host
     = (Val (msg_object "[initializer]"),
        publish (VSym 0 "") (msg_object "[initializer]")
          (log_call test_initializer (log_call null_override root_host))).
Proof. repeat split; reflexivity. Qed.

(** C4: in provide mode, when the resolved value is absent - in particular
    when there is neither a bound nor an override initializer - the call
    throws the "is not initialized" error, whose message carries the string
    form of the binding key, and the published tables are as before;
    otherwise the resolved value is stored under the binding key in the
    component's own table and returned. *)
Theorem C4_publish_or_not_initialized (c : closure) (args : list value) (h : host) :
  strict_eq_string (arg 0 args) "provide" = true ->
  is_nullish (arg 1 args) || is_function (arg 1 args) = true ->
  (forall v h', resolve_value (arg 1 args) (initializer c) h = (Val v, h') ->
     if is_nullish v
     then UseDependencyInjection c args h
          = (Exc (VErr JsError
                    ("UseDependencyInjection value `" ++ toString (injectKey c)
                     ++ "` is not initialized")), h')
          /\ provides h' = provides h /\ ancestors h' = ancestors h
     else UseDependencyInjection c args h = (Val v, publish (injectKey c) v h')
          /\ provides (publish (injectKey c) v h') !! toPropertyKey (injectKey c) = Some v)
  /\ (is_nullish (arg 1 args) = true -> is_nullish (initializer c) = true ->
      UseDependencyInjection c args h
      = (Exc (VErr JsError
                ("UseDependencyInjection value `" ++ toString (injectKey c)
                 ++ "` is not initialized")), h)).
Proof.
  intros Hmode Hok. split.
  - intros v h' Hres.
    rewrite (provide_mode_unfold c args h Hmode Hok), Hres.
    destruct (is_nullish v).
    + split; [reflexivity|]. by apply resolve_value_store in Hres.
    + split; [reflexivity|]. simpl. apply lookup_insert_eq.
  - intros Ha Hi.
    rewrite (provide_mode_unfold c args h Hmode Hok).
    unfold resolve_value, bind, optional_call. rewrite Ha, Hi. reflexivity.
Qed.

Lemma C4_witness :
  strict_eq_string (arg 0 [VStr "provide"]) "provide" = true
  /\ is_nullish (arg 1 [VStr "provide"]) || is_function (arg 1 [VStr "provide"]) = true
  /\ UseDependencyInjection u_not_initialized [VStr "provide"] root_host
     = (Exc (VErr JsError "UseDependencyInjection value `Symbol()` is not initialized"),
        root_host)
  /\ UseDependencyInjection u_initialized [VStr "provide"] root_host
     = (Val (msg_object "[initializer]"),
        publish (VSym 0 "") (msg_object "[initializer]") (log_call test_initializer root_host)).
Proof.
  split; [reflexivity|]. split; [reflexivity|]. split.
  - apply (proj2 (C4_publish_or_not_initialized u_not_initialized [VStr "provide"] root_host
                    eq_refl eq_refl) eq_refl eq_refl).
  - apply (proj1 (C4_publish_or_not_initialized u_initialized [VStr "provide"] root_host
                    eq_refl eq_refl)
             (msg_object "[initializer]") (log_call test_initializer root_host) eq_refl).
Defined.

(** C10: in provide mode, when the override initializer is callable but
    returns an absent value and the bound initializer returns a non-absent
    one, the bound initializer is invoked after the override and its result
    is published and returned; the call does not fail. *)
Theorem C10_absent_override_falls_back
    (c : closure) (args : list value) (h : host) (absent v : value) :
  strict_eq_string (arg 0 args) "provide" = true ->
  arg 1 args = VFun (Returns absent) ->
  is_nullish absent = true ->
  initializer c = VFun (Returns v) ->
  is_nullish v = false ->
  UseDependencyInjection c args h
  = (Val v, publish (injectKey c) v (log_call (initializer c) (log_call (arg 1 args) h))).
Proof.
  intros Hmode Ha1 Habsent Hinit Hv.
  rewrite (provide_mode_unfold c args h Hmode) by (rewrite Ha1; reflexivity).
  rewrite Ha1, Hinit. unfold resolve_value, bind, optional_call, call. simpl.
  rewrite Habsent. simpl. rewrite Hv. reflexivity.
Qed.

Lemma C10_witness :
  strict_eq_string (arg 0 [VStr "provide"; null_override]) "provide" = true
  /\ arg 1 [VStr "provide"; null_override] = VFun (Returns VNull)
  /\ is_nullish VNull = true
  /\ initializer u_initialized = VFun (Returns (msg_object "[initializer]"))
  /\ is_nullish (msg_object "[initializer]") = false
  /\ UseDependencyInjection u_initialized [VStr "provide"; null_override] root_host
     = (Val (msg_object "[initializer]"),
        publish (injectKey u_initialized) (msg_object "[initializer]")
          (log_call (initializer u_initialized)
             (log_call (arg 1 [VStr "provide"; null_override]) root_host))).
Proof.
  repeat (split; [reflexivity|]).
  apply (C10_absent_override_falls_back u_initialized [VStr "provide"; null_override] root_host
           VNull (msg_object "[initializer]") eq_refl eq_refl eq_refl eq_refl eq_refl).
Defined.

(* ===================================================================== *)
(** ** The factory's arguments *)
(* ===================================================================== *)

(** C3 (as amended): when the first and the second argument are both
    non-absent, a first argument that is not a function makes the factory
    throw a [TypeError] whose message is "[defineUseDependencyInjection]
    first argument must be a initializer function when two arguments are
    provided", and draws no symbol; a first argument that is a function
    raises no error and is bound as the initializer, with the second
    argument as the options. *)
Theorem C3_two_present_arguments (args : list value) (n : nat) :
  is_nullish (arg 0 args) = false ->
  is_nullish (arg 1 args) = false ->
  (is_function (arg 0 args) = false ->
     defineUseDependencyInjection args n
     = (Exc (VErr JsTypeError
               "[defineUseDependencyInjection] first argument must be a initializer function when two arguments are provided"),
        n))
  /\ (is_function (arg 0 args) = true ->
      exists key n',
        defineUseDependencyInjection args n
        = (Val {| injectKey := key; initializer := arg 0 args; options := arg 1 args |}, n')).
Proof.
  intros H0 H1. unfold defineUseDependencyInjection. rewrite H0, H1. simpl. split.
  - intros Hf. rewrite Hf. reflexivity.
  - intros Hf. rewrite Hf. simpl. unfold bind at 1. simpl.
    unfold bind, ret, Symbol.
    destruct (is_nullish (get_prop (arg 1 args) "key")); eauto.
Qed.

Lemma C3_witness :
  is_nullish (arg 0 [VStr "initializer"; VObj ∅]) = false
  /\ is_nullish (arg 1 [VStr "initializer"; VObj ∅]) = false
  /\ is_function (arg 0 [VStr "initializer"; VObj ∅]) = false
  /\ defineUseDependencyInjection [VStr "initializer"; VObj ∅] 0
     = (Exc (VErr JsTypeError
               "[defineUseDependencyInjection] first argument must be a initializer function when two arguments are provided"),
        0).
Proof.
  repeat (split; [reflexivity|]).
  apply (proj1 (C3_two_present_arguments [VStr "initializer"; VObj ∅] 0 eq_refl eq_refl) eq_refl).
Defined.

(** C3, as stated, fails: with exactly two arguments of which the first is
    not a function, no error is raised when either argument is absent. *)
Lemma C3_counterexample :
  is_function VNull = false
  /\ defineUseDependencyInjection [VNull; VObj optionsWithInjectDefault] 0
     = (Val {| injectKey := VSym 0 ""; initializer := VUndefined; options := VObj ∅ |}, 1)
  /\ is_function (VStr "initializer") = false
  /\ defineUseDependencyInjection [VStr "initializer"; VUndefined] 0
     = (Val {| injectKey := VSym 0 ""; initializer := VUndefined;
               options := VStr "initializer" |}, 1).
Proof. repeat split; reflexivity. Qed.

(** C9: a call of the factory with two arguments of which the first is
    [undefined] or [null] gives exactly what the call with no argument
    gives: no error, no bound initializer, empty options and a fresh symbol
    as key; the second argument plays no part. *)
Theorem C9_absent_first_argument (config : value) (n : nat) :
  defineUseDependencyInjection [VUndefined; config] n = defineUseDependencyInjection [] n
  /\ defineUseDependencyInjection [VNull; config] n = defineUseDependencyInjection [] n
  /\ defineUseDependencyInjection [] n
     = (Val {| injectKey := VSym n ""; initializer := VUndefined; options := VObj ∅ |}, S n).
Proof. repeat split; reflexivity. Qed.

(* ===================================================================== *)
(** ** Further properties of the factory *)
(* ===================================================================== *)

(** What a returned resolver closes over, by the shape of the arguments. *)
Lemma define_inversion (args : list value) (n n' : nat) (c : closure) :
  defineUseDependencyInjection args n = (Val c, n') ->
  ((is_nullish (arg 0 args) = false /\ is_nullish (arg 1 args) = false
    /\ is_function (arg 0 args) = true
    /\ initializer c = arg 0 args /\ options c = arg 1 args)
   \/ (is_nullish (arg 0 args) = false /\ is_nullish (arg 1 args) = true
       /\ is_function (arg 0 args) = true
       /\ initializer c = arg 0 args /\ options c = VObj ∅)
   \/ (is_nullish (arg 0 args) = false /\ is_nullish (arg 1 args) = true
       /\ is_function (arg 0 args) = false
       /\ initializer c = VUndefined /\ options c = arg 0 args)
   \/ (is_nullish (arg 0 args) = true
       /\ initializer c = VUndefined /\ options c = VObj ∅))
  /\ (if is_nullish (get_prop (options c) "key")
      then injectKey c = VSym n "" /\ n' = S n
      else injectKey c = get_prop (options c) "key" /\ n' = n).
Proof.
  unfold defineUseDependencyInjection.
  destruct (is_nullish (arg 0 args)) eqn:H0, (is_nullish (arg 1 args)) eqn:H1,
    (is_function (arg 0 args)) eqn:Hf; cbn [negb andb];
    unfold bind at 1; unfold ret at 1, throw; cbn [fst snd]; try discriminate;
    unfold bind, ret, Symbol;
    match goal with
    | |- context [is_nullish (get_prop ?o "key")] =>
        destruct (is_nullish (get_prop o "key")) eqn:K
    end;
    intros [= <- <-]; cbn [options injectKey initializer]; rewrite K;
    (split; [|done]); tauto.
Qed.

(** X1: the factory throws in exactly one situation: both arguments are
    non-absent and the first is not a function.  The error is then the
    [TypeError] of the first-argument check; in every other situation a
    resolver is returned. *)
Theorem X1_factory_throws_exactly_when (args : list value) (n : nat) :
  ((exists e, (defineUseDependencyInjection args n).1 = Exc e)
   <-> (is_nullish (arg 0 args) = false /\ is_nullish (arg 1 args) = false
        /\ is_function (arg 0 args) = false))
  /\ (forall e, (defineUseDependencyInjection args n).1 = Exc e ->
        e = new_TypeError first_argument_message).
Proof.
  unfold defineUseDependencyInjection, bind, ret, throw, Symbol.
  destruct (is_nullish (arg 0 args)) eqn:H0, (is_nullish (arg 1 args)) eqn:H1,
    (is_function (arg 0 args)) eqn:Hf; simpl;
    repeat match goal with
           | |- context [is_nullish (get_prop ?o "key")] =>
               destruct (is_nullish (get_prop o "key")); simpl
           end;
    (split; [split|]);
    try (intros [e [=]]); try (intros (? & ? & ?); discriminate);
    try (intros e [=]); try (intros _); eauto.
Qed.

Lemma X1_witness :
  (exists e, (defineUseDependencyInjection [VBool true; VObj ∅] 0).1 = Exc e)
  /\ ~ (exists e, (defineUseDependencyInjection [VBool true] 0).1 = Exc e).
Proof.
  split.
  - apply (proj2 (proj1 (X1_factory_throws_exactly_when [VBool true; VObj ∅] 0))).
    repeat split.
  - intros H. apply (proj1 (proj1 (X1_factory_throws_exactly_when [VBool true] 0))) in H.
    destruct H as (_ & H & _). discriminate H.
Defined.

(** X2: with one non-absent argument (the second absent), a function is
    bound as the initializer with empty options, and anything else is taken
    as the options with no initializer bound. *)
Theorem X2_one_argument (args : list value) (n : nat) :
  is_nullish (arg 0 args) = false ->
  is_nullish (arg 1 args) = true ->
  exists key n',
    defineUseDependencyInjection args n
    = (Val {| injectKey := key;
              initializer := if is_function (arg 0 args) then arg 0 args else VUndefined;
              options := if is_function (arg 0 args) then VObj ∅ else arg 0 args |}, n').
Proof.
  intros H0 H1. unfold defineUseDependencyInjection, bind, ret, Symbol.
  rewrite H0, H1. simpl.
  destruct (is_function (arg 0 args)); simpl.
  - eauto.
  - destruct (is_nullish (get_prop (arg 0 args) "key")); eauto.
Qed.

Lemma X2_witness :
  is_nullish (arg 0 [VObj optionsWithThrowOnNoProvider]) = false
  /\ is_nullish (arg 1 [VObj optionsWithThrowOnNoProvider]) = true
  /\ exists key n',
       defineUseDependencyInjection [VObj optionsWithThrowOnNoProvider] 0
       = (Val {| injectKey := key; initializer := VUndefined;
                 options := VObj optionsWithThrowOnNoProvider |}, n').
Proof.
  split; [reflexivity|]. split; [reflexivity|].
  apply (X2_one_argument [VObj optionsWithThrowOnNoProvider] 0 eq_refl eq_refl).
Defined.

(** X3: the binding key of a returned resolver is the [key] of its options
    when that is non-absent, and then no symbol is drawn; otherwise it is
    the next fresh symbol. *)
Theorem X3_binding_key (args : list value) (n n' : nat) (c : closure) :
  defineUseDependencyInjection args n = (Val c, n') ->
  if is_nullish (get_prop (options c) "key")
  then injectKey c = VSym n "" /\ n' = S n
  else injectKey c = get_prop (options c) "key" /\ n' = n.
Proof. intros D. exact (proj2 (define_inversion args n n' c D)). Qed.

Lemma X3_witness :
  defineUseDependencyInjection [test_initializer; VObj {[ "key" := VStr "shared" ]}] 7
  = (Val u_string_key, 7)
  /\ injectKey u_string_key = VStr "shared".
Proof.
  split; [reflexivity|].
  pose proof (X3_binding_key [test_initializer; VObj {[ "key" := VStr "shared" ]}] 7 7
                u_string_key) as H.
  assert (E : defineUseDependencyInjection
                [test_initializer; VObj {[ "key" := VStr "shared" ]}] 7
              = (Val u_string_key, 7)) by reflexivity.
  exact (proj1 (H E)).
Defined.

(** X4: two resolvers made without an explicit key, the second after the
    first, have different binding keys, and neither key is a string key. *)
Theorem X4_generated_keys_distinct
    (args1 args2 : list value) (n n1 m m' : nat) (c1 c2 : closure) :
  defineUseDependencyInjection args1 n = (Val c1, n1) ->
  defineUseDependencyInjection args2 m = (Val c2, m') ->
  n1 <= m ->
  is_nullish (get_prop (options c1) "key") = true ->
  is_nullish (get_prop (options c2) "key") = true ->
  toPropertyKey (injectKey c1) <> toPropertyKey (injectKey c2)
  /\ forall s, toPropertyKey (injectKey c1) <> PStr s.
Proof.
  intros D1 D2 Hle K1 K2.
  pose proof (proj2 (define_inversion args1 n n1 c1 D1)) as H1.
  pose proof (proj2 (define_inversion args2 m m' c2 D2)) as H2.
  rewrite K1 in H1. rewrite K2 in H2.
  destruct H1 as [-> ->], H2 as [-> _]. simpl. split.
  - intros [= ->]. lia.
  - intros s. discriminate.
Qed.

Lemma X4_witness :
  toPropertyKey (injectKey u_initialized) <> toPropertyKey (injectKey u_other_symbol)
  /\ forall s, toPropertyKey (injectKey u_initialized) <> PStr s.
Proof.
  apply (X4_generated_keys_distinct [test_initializer] [test_overrideInitializer] 0 1 1 2
           u_initialized u_other_symbol eq_refl eq_refl (le_n 1) eq_refl eq_refl).
Defined.

(** X5: the initializer a returned resolver closes over is [undefined] or a
    function, whatever the factory was given. *)
Theorem X5_bound_initializer_shape (args : list value) (n n' : nat) (c : closure) :
  defineUseDependencyInjection args n = (Val c, n') ->
  initializer c = VUndefined \/ is_function (initializer c) = true.
Proof.
  intros D.
  destruct (proj1 (define_inversion args n n' c D))
    as [(_ & _ & Hf & -> & _) | [(_ & _ & Hf & -> & _) | [(_ & _ & _ & -> & _) | (_ & -> & _)]]];
    auto.
Qed.

Lemma X5_witness :
  initializer u_not_initialized = VUndefined
  \/ is_function (initializer u_not_initialized) = true.
Proof.
  assert (E : defineUseDependencyInjection [VObj ∅] 0 = (Val u_not_initialized, 1))
    by reflexivity.
  exact (X5_bound_initializer_shape [VObj ∅] 0 1 u_not_initialized E).
Defined.

(* ===================================================================== *)
(** ** Further properties of the resolver *)
(* ===================================================================== *)



(** Below a component, an entry of its own table is found first; without
    one, the lookup continues in the component's ancestors. *)
Lemma published_descendant (key : value) (k : nat) (h : host) :
  published key (descendant (S k) h)
  = match provides h !! toPropertyKey key with
    | Some v => Some v
    | None => published key h
    end.
Proof.
  induction k as [|k IH].
  - reflexivity.
  - change (descendant (S (S k)) h) with (enter_child (descendant (S k) h)).
    unfold published in *. simpl ancestors. simpl lookup_chain.
    change (provides (descendant (S k) h)) with (∅ : gmap prop_key value).
    rewrite lookup_empty. exact IH.
Qed.



(** X7: provide then inject is a round trip.  The value provide mode
    returns is what inject mode returns in every descendant that has no
    nearer provider, through any resolver with the same binding key, under
    any policy, and whatever the provider's own ancestors had published;
    the consumer's call leaves the store as it was. *)
Theorem X7_provide_inject_round_trip
    (c c' : closure) (args args' : list value) (ov : gmap string value)
    (h h' : host) (v : value) (k : nat) :
  strict_eq_string (arg 0 args) "provide" = true ->
  UseDependencyInjection c args h = (Val v, h') ->
  toPropertyKey (injectKey c') = toPropertyKey (injectKey c) ->
  strict_eq_string (arg 0 args') "provide" = false ->
  overrideOptions_of args' = VObj ov ->
  UseDependencyInjection c' args' (descendant (S k) h') = (Val v, descendant (S k) h').
Proof.
  intros Hmode Hrun Hkey Hmode' Hov.
  destruct (provide_mode_publishes_present c args h h' v Hmode Hrun) as (Hv & Hown & _).
  assert (Hpub : published (injectKey c') (descendant (S k) h') = Some v).
  { rewrite published_descendant, Hkey, Hown. reflexivity. }
  rewrite (inject_mode_by_policy c' args' ov _ Hmode' Hov).
  destruct (effective_policy (spread (options c')) ov) as [|d|ef];
    unfold consume_by_policy, bind, inject; rewrite Hpub; try reflexivity.
  by rewrite Hv.
Qed.

Lemma X7_witness :
  strict_eq_string (arg 0 [VStr "provide"; test_overrideInitializer]) "provide" = true
  /\ toPropertyKey (injectKey u_with_throw) = toPropertyKey (injectKey u_initialized)
  /\ strict_eq_string (arg 0 [VStr "inject"]) "provide" = false
  /\ overrideOptions_of [VStr "inject"] = VObj ∅
  /\ (UseDependencyInjection u_with_throw [VStr "inject"]
        (descendant 3
           (UseDependencyInjection u_initialized [VStr "provide"; test_overrideInitializer]
              child_of_provider).2)).1
     = Val (msg_object "[overrideInitializer]").
Proof.
  repeat (split; [reflexivity|]).
  assert (E : UseDependencyInjection u_initialized [VStr "provide"; test_overrideInitializer]
                child_of_provider
              = (Val (msg_object "[overrideInitializer]"),
                 (UseDependencyInjection u_initialized
                    [VStr "provide"; test_overrideInitializer] child_of_provider).2))
    by reflexivity.
  rewrite (X7_provide_inject_round_trip u_initialized u_with_throw
             [VStr "provide"; test_overrideInitializer] [VStr "inject"] ∅
             child_of_provider _ (msg_object "[overrideInitializer]") 2
             eq_refl E eq_refl eq_refl eq_refl).
  reflexivity.
Defined.





(** X10: the call shapes of inject mode agree.  Calling with no argument is
    calling with ['inject']; passing override options after ['inject'] is
    passing them as the only argument, for every options argument other
    than the two mode literals; and after such a first argument a second
    argument plays no part. *)
Theorem X10_inject_call_shapes (c : closure) (ov extra : value) (h : host) :
  strict_eq_string ov "provide" = false ->
  strict_eq_string ov "inject" = false ->
  UseDependencyInjection c [VStr "inject"; ov] h = UseDependencyInjection c [ov] h
  /\ UseDependencyInjection c [] h = UseDependencyInjection c [VStr "inject"] h
  /\ UseDependencyInjection c [ov; extra] h = UseDependencyInjection c [ov] h.
Proof.
  intros Hp Hi. split; [|split].
  - unfold UseDependencyInjection, overrideOptions_of.
    change (arg 0 [VStr "inject"; ov]) with (VStr "inject").
    change (arg 1 [VStr "inject"; ov]) with ov.
    change (arg 0 [ov]) with ov.
    rewrite Hp, Hi. reflexivity.
  - reflexivity.
  - unfold UseDependencyInjection, overrideOptions_of.
    change (arg 0 [ov; extra]) with ov. change (arg 0 [ov]) with ov.
    rewrite Hp, Hi. reflexivity.
Qed.

Lemma X10_witness :
  strict_eq_string (VObj overrideOptionsWithInjectDefault) "provide" = false
  /\ strict_eq_string (VObj overrideOptionsWithInjectDefault) "inject" = false
  /\ UseDependencyInjection u_with_throw [VStr "inject"; VObj overrideOptionsWithInjectDefault]
       root_host
     = UseDependencyInjection u_with_throw [VObj overrideOptionsWithInjectDefault] root_host.
Proof.
  split; [reflexivity|]. split; [reflexivity|].
  exact (proj1 (X10_inject_call_shapes u_with_throw (VObj overrideOptionsWithInjectDefault)
                  VUndefined root_host eq_refl eq_refl)).
Defined.

(** X11: in inject mode, per-call options that are a primitive (a string
    other than a mode literal in first position, a boolean, a symbol) make
    the call throw a [TypeError] from the [in] test, before any lookup:
    the store is unchanged and no callback is invoked, even when a value is
    published. *)
Theorem X11_primitive_override_rejected (c : closure) (args : list value) (h : host) :
  strict_eq_string (arg 0 args) "provide" = false ->
  is_primitive (overrideOptions_of args) = true ->
  exists msg, UseDependencyInjection c args h = (Exc (VErr JsTypeError msg), h).
Proof.
  intros Hmode Hprim. unfold UseDependencyInjection. rewrite Hmode.
  unfold bind at 1, merge_options, bind at 1, has_property.
  destruct (overrideOptions_of args); simpl in Hprim; try discriminate;
    unfold throw; eauto.
Qed.

Lemma X11_witness :
  strict_eq_string (arg 0 [VStr "injcet"]) "provide" = false
  /\ is_primitive (overrideOptions_of [VStr "injcet"]) = true
  /\ exists msg,
       UseDependencyInjection u_initialized [VStr "injcet"] child_of_provider
       = (Exc (VErr JsTypeError msg), child_of_provider).
Proof.
  split; [reflexivity|]. split; [reflexivity|].
  exact (X11_primitive_override_rejected u_initialized [VStr "injcet"] child_of_provider
           eq_refl eq_refl).
Defined.

(** X12: when the effective policy is a [throwOnNoProvider] that is present
    but not a function and nothing is published, the call throws a
    [TypeError] (calling it fails) and leaves the store as it was. *)
Theorem X12_error_factory_not_callable
    (c : closure) (args : list value) (ov : gmap string value) (h : host) (ef : value) :
  strict_eq_string (arg 0 args) "provide" = false ->
  overrideOptions_of args = VObj ov ->
  effective_policy (spread (options c)) ov = ThrowOnNoProvider ef ->
  is_function ef = false ->
  published (injectKey c) h = None ->
  exists msg, UseDependencyInjection c args h = (Exc (VErr JsTypeError msg), h).
Proof.
  intros Hmode Hov Hpol Hf Hpub.
  rewrite (inject_mode_by_policy c args ov h Hmode Hov), Hpol.
  unfold consume_by_policy, bind, inject, call. rewrite Hpub. simpl.
  destruct ef; simpl in Hf; try discriminate; eauto.
Qed.

Lemma X12_witness :
  strict_eq_string (arg 0 []) "provide" = false
  /\ overrideOptions_of [] = VObj ∅
  /\ effective_policy (spread (options u_bad_error_factory)) ∅
     = ThrowOnNoProvider (VStr "no provider")
  /\ is_function (VStr "no provider") = false
  /\ published (injectKey u_bad_error_factory) root_host = None
  /\ exists msg,
       UseDependencyInjection u_bad_error_factory [] root_host
       = (Exc (VErr JsTypeError msg), root_host).
Proof.
  repeat (split; [reflexivity|]).
  exact (X12_error_factory_not_callable u_bad_error_factory [] ∅ root_host
           (VStr "no provider") eq_refl eq_refl eq_refl eq_refl eq_refl).
Defined.

(** X13: base options that carry both an [injectDefault] and a
    [throwOnNoProvider] behave as if only the [injectDefault] were there:
    without an overriding policy and with nothing published the default is
    returned (a factory being invoked first), and the error factory is
    never invoked. *)
Theorem X13_base_default_beats_base_throw
    (c : closure) (args : list value) (ov : gmap string value) (h : host) :
  strict_eq_string (arg 0 args) "provide" = false ->
  overrideOptions_of args = VObj ov ->
  policy_of ov = NoPolicy ->
  is_nullish (prop (spread (options c)) "injectDefault") = false ->
  published (injectKey c) h = None ->
  UseDependencyInjection c args h
  = match prop (spread (options c)) "injectDefault" with
    | VFun body => (completes body, log_call (prop (spread (options c)) "injectDefault") h)
    | d => (Val d, h)
    end.
Proof.
  intros Hmode Hov Hnone Hd Hpub.
  rewrite (inject_mode_by_policy c args ov h Hmode Hov).
  assert (effective_policy (spread (options c)) ov
          = InjectDefault (prop (spread (options c)) "injectDefault")) as ->.
  { revert Hnone. unfold effective_policy, policy_of.
    destruct (is_nullish (prop ov "injectDefault")); simpl; [|discriminate].
    destruct (is_nullish (prop ov "throwOnNoProvider")); simpl; [|discriminate].
    intros _. by rewrite Hd. }
  unfold consume_by_policy, inject. rewrite Hpub.
  destruct (prop (spread (options c)) "injectDefault"); try reflexivity.
  simpl. destruct body; reflexivity.
Qed.

Lemma X13_witness :
  strict_eq_string (arg 0 [VStr "inject"]) "provide" = false
  /\ overrideOptions_of [VStr "inject"] = VObj ∅
  /\ policy_of (∅ : gmap string value) = NoPolicy
  /\ is_nullish (prop (spread (options u_both_policies)) "injectDefault") = false
  /\ published (injectKey u_both_policies) root_host = None
  /\ UseDependencyInjection u_both_policies [VStr "inject"] root_host
     = (Val (msg_object "[optionsWithInjectDefault]"), log_call D1 root_host).
Proof.
  repeat (split; [reflexivity|]).
  exact (X13_base_default_beats_base_throw u_both_policies [VStr "inject"] ∅ root_host
           eq_refl eq_refl eq_refl eq_refl eq_refl).
Defined.

(** X14: a [null] or [undefined] attached under the binding key by an
    ancestor is not told apart from a missing provider by the test of the
    value: with a [throwOnNoProvider] policy the call throws what the error
    factory produces although an ancestor holds the key, and with no policy
    the attached absent value is returned. *)
Theorem X14_absent_value_provided
    (c : closure) (args : list value) (ov : gmap string value) (h : host) (v : value) :
  strict_eq_string (arg 0 args) "provide" = false ->
  overrideOptions_of args = VObj ov ->
  published (injectKey c) h = Some v ->
  is_nullish v = true ->
  (forall body,
      effective_policy (spread (options c)) ov = ThrowOnNoProvider (VFun body) ->
      UseDependencyInjection c args h = (Exc (thrown body), log_call (VFun body) h))
  /\ (effective_policy (spread (options c)) ov = NoPolicy ->
      UseDependencyInjection c args h = (Val v, h)).
Proof.
  intros Hmode Hov Hpub Hv.
  rewrite (inject_mode_by_policy c args ov h Hmode Hov). split.
  - intros body ->. unfold consume_by_policy, bind, inject. rewrite Hpub, Hv.
    unfold call, throw. destruct body; reflexivity.
  - intros ->. unfold consume_by_policy, inject. by rewrite Hpub.
Qed.

Lemma X14_witness :
  strict_eq_string (arg 0 []) "provide" = false
  /\ overrideOptions_of [] = VObj ∅
  /\ published (injectKey u_with_throw) null_provided_host = Some VNull
  /\ is_nullish VNull = true
  /\ UseDependencyInjection u_with_throw [] null_provided_host
     = (Exc (new_Error "[optionsWithThrowOnNoProvider] No provider found"),
        log_call E1 null_provided_host).
Proof.
  repeat (split; [reflexivity|]).
  exact (proj1 (X14_absent_value_provided u_with_throw [] ∅ null_provided_host VNull
                  eq_refl eq_refl eq_refl eq_refl)
           (Returns (new_Error "[optionsWithThrowOnNoProvider] No provider found")) eq_refl).
Defined.

(** X15: a resolver made by the factory from an initializer that returns a
    non-absent value works end to end: provide mode without an override
    returns that value, and inject mode returns it in every descendant with
    no nearer provider, whatever options the factory and the consumer
    passed. *)
Theorem X15_factory_provide_inject
    (args : list value) (n n' : nat) (c : closure) (v : value) (h : host) :
  arg 0 args = VFun (Returns v) ->
  is_nullish v = false ->
  defineUseDependencyInjection args n = (Val c, n') ->
  exists h1,
    UseDependencyInjection c [VStr "provide"] h = (Val v, h1)
    /\ forall (k : nat) (args' : list value) (ov : gmap string value),
         strict_eq_string (arg 0 args') "provide" = false ->
         overrideOptions_of args' = VObj ov ->
         UseDependencyInjection c args' (descendant (S k) h1) = (Val v, descendant (S k) h1).
Proof.
  intros Ha Hv Hdef.
  assert (Hinit : initializer c = VFun (Returns v)).
  { destruct (proj1 (define_inversion args n n' c Hdef))
      as [(_ & _ & _ & -> & _) | [(_ & _ & _ & -> & _) | [(_ & _ & Hf & _) | (Hn & _)]]];
      [done | done | | ]; rewrite Ha in *; discriminate. }
  assert (Hrun : UseDependencyInjection c [VStr "provide"] h
                 = (Val v, publish (injectKey c) v (log_call (initializer c) h))).
  { rewrite (provide_mode_unfold c [VStr "provide"] h eq_refl eq_refl).
    change (arg 1 [VStr "provide"]) with VUndefined.
    unfold resolve_value, bind, optional_call at 1, ret. simpl is_nullish. cbv iota.
    unfold optional_call, call. rewrite Hinit. simpl. rewrite Hv. reflexivity. }
  eexists. split; [exact Hrun|].
  intros k args' ov Hmode' Hov.
  destruct (provide_mode_publishes_present c [VStr "provide"] h _ v eq_refl Hrun)
    as (_ & Hown & _).
  assert (Hpub : published (injectKey c)
                   (descendant (S k) (publish (injectKey c) v (log_call (initializer c) h)))
                 = Some v).
  { rewrite published_descendant, Hown. reflexivity. }
  rewrite (inject_mode_by_policy c args' ov _ Hmode' Hov).
  destruct (effective_policy (spread (options c)) ov) as [|d|ef];
    unfold consume_by_policy, bind, inject; rewrite Hpub; try reflexivity.
  by rewrite Hv.
Qed.

Lemma X15_witness :
  arg 0 [test_initializer; VObj {[ "key" := VStr "shared" ]}]
  = VFun (Returns (msg_object "[initializer]"))
  /\ is_nullish (msg_object "[initializer]") = false
  /\ exists h1,
       UseDependencyInjection u_string_key [VStr "provide"] root_host
       = (Val (msg_object "[initializer]"), h1)
       /\ UseDependencyInjection u_string_key [VObj overrideOptionsWithThrowOnNoProvider]
            (descendant 2 h1)
          = (Val (msg_object "[initializer]"), descendant 2 h1).
Proof.
  split; [reflexivity|]. split; [reflexivity|].
  assert (E : defineUseDependencyInjection
                [test_initializer; VObj {[ "key" := VStr "shared" ]}] 7
              = (Val u_string_key, 7)) by reflexivity.
  destruct (X15_factory_provide_inject
              [test_initializer; VObj {[ "key" := VStr "shared" ]}] 7 7 u_string_key
              (msg_object "[initializer]") root_host eq_refl eq_refl E) as (h1 & Hrun & Hinj).
  exists h1. split; [exact Hrun|].
  exact (Hinj 1 [VObj overrideOptionsWithThrowOnNoProvider]
           overrideOptionsWithThrowOnNoProvider eq_refl eq_refl).
Defined.
